(** * flathunter.gpt_formatter: the GPT expose formatter

    A shallow embedding of [src/flathunter/gpt_formatter.py] and the
    properties of [GPTExposeFormatter.format], [_build_payload] and
    [enabled].

    Python values are an inductive type, a [str] is its sequence of code
    points, the two effects of the module (the HTTP POST of [requests] and
    the warnings of the logger) are recorded in a trace, and exceptions are
    an explicit result. *)

From Stdlib Require Import List String Ascii NArith ZArith Bool Lia.
From Stdlib Require Import DecimalString.
Import ListNotations.

Local Open Scope N_scope.
Local Open Scope list_scope.

(* ================================================================== *)
(** ** Python strings *)

(** A Python [str] is a sequence of Unicode code points. *)
Definition pystr := list N.

(** Source literals are written as UTF-8 text and decoded to code points.
    The decoder reads one to four bytes per code point. *)
Fixpoint utf8_decode (bs : list N) : pystr :=
  match bs with
  | [] => []
  | b0 :: r0 =>
    if b0 <? 128 then b0 :: utf8_decode r0
    else match r0 with
    | [] => []
    | b1 :: r1 =>
      if b0 <? 224 then ((b0 - 192) * 64 + (b1 - 128)) :: utf8_decode r1
      else match r1 with
      | [] => []
      | b2 :: r2 =>
        if b0 <? 240
        then ((b0 - 224) * 4096 + (b1 - 128) * 64 + (b2 - 128)) :: utf8_decode r2
        else match r2 with
        | [] => []
        | b3 :: r3 =>
          ((b0 - 240) * 262144 + (b1 - 128) * 4096 + (b2 - 128) * 64 + (b3 - 128))
            :: utf8_decode r3
        end
      end
    end
  end.

(** [u "text"] is the Python string literal ['text']. *)
Definition u (s : string) : pystr :=
  utf8_decode (map N_of_ascii (list_ascii_of_string s)).

Fixpoint str_eqb (a b : pystr) : bool :=
  match a, b with
  | [], [] => true
  | x :: a', y :: b' => (x =? y) && str_eqb a' b'
  | _, _ => false
  end.

(** [bool(s)] for a string: non-empty. *)
Definition str_truthy (s : pystr) : bool :=
  match s with [] => false | _ :: _ => true end.

(** Whitespace as [str.isspace] and [str.strip] see it: the code points of
    bidirectional type WS, B or S, or of category Zs. *)
Definition is_space (c : N) : bool :=
  ((9 <=? c) && (c <=? 13)) || ((28 <=? c) && (c <=? 32))
  || (c =? 133) || (c =? 160) || (c =? 5760)
  || ((8192 <=? c) && (c <=? 8202))
  || (c =? 8232) || (c =? 8233) || (c =? 8239) || (c =? 8287) || (c =? 12288).

Fixpoint py_lstrip (p : N -> bool) (s : pystr) : pystr :=
  match s with
  | [] => []
  | c :: r => if p c then py_lstrip p r else s
  end.

Definition py_rstrip (p : N -> bool) (s : pystr) : pystr :=
  rev (py_lstrip p (rev s)).

(** [s.strip()] *)
Definition str_strip (s : pystr) : pystr :=
  py_rstrip is_space (py_lstrip is_space s).

(** [s.rstrip(chars)] *)
Definition str_rstrip (chars : pystr) (s : pystr) : pystr :=
  py_rstrip (fun c => existsb (N.eqb c) chars) s.

(* ================================================================== *)
(** ** Python values *)

(** The values that [json] reads and writes.  A dict keeps its insertion
    order, so it is an association list; its keys are strings, as in every
    parsed JSON object and in an expose.  A float is kept as the text
    [float.__repr__] gives for it ("0.5", "1e-07", "nan", "inf"). *)
#[local] Set Warnings "-register-all".
Inductive pyval : Type :=
| PyNone
| PyBool (b : bool)
| PyInt (n : Z)
| PyFloat (repr : pystr)
| PyStr (s : pystr)
| PyList (l : list pyval)
| PyDict (d : list (pystr * pyval)).

Definition float_is_zero (repr : pystr) : bool :=
  str_eqb repr (u "0.0") || str_eqb repr (u "-0.0").

(** [bool(v)], the truth value tested by [not v]. *)
Definition truthy (v : pyval) : bool :=
  match v with
  | PyNone => false
  | PyBool b => b
  | PyInt n => negb (n =? 0)%Z
  | PyFloat r => negb (float_is_zero r)
  | PyStr s => str_truthy s
  | PyList l => match l with [] => false | _ :: _ => true end
  | PyDict d => match d with [] => false | _ :: _ => true end
  end.

Fixpoint dict_lookup (d : list (pystr * pyval)) (key : pystr) : option pyval :=
  match d with
  | [] => None
  | (k, v) :: d' => if str_eqb k key then Some v else dict_lookup d' key
  end.

(* ================================================================== *)
(** ** Exceptions *)

(** The exception classes of [requests.exceptions] and the built-in ones
    that the expressions of [format] can raise. *)
Inductive exception : Type :=
| RequestException | HTTPError | ConnectionError | ProxyError | SSLError
| Timeout | ConnectTimeout | ReadTimeout | URLRequired | TooManyRedirects
| MissingSchema | InvalidSchema | InvalidURL | InvalidHeader
| ChunkedEncodingError | ContentDecodingError | InvalidJSONError
| JSONDecodeError
| OSError | ValueError | TypeError | AttributeError | LookupError
| IndexError | KeyError.

Definition exception_eqb (a b : exception) : bool :=
  match a, b with
  | RequestException, RequestException | HTTPError, HTTPError
  | ConnectionError, ConnectionError | ProxyError, ProxyError
  | SSLError, SSLError | Timeout, Timeout | ConnectTimeout, ConnectTimeout
  | ReadTimeout, ReadTimeout | URLRequired, URLRequired
  | TooManyRedirects, TooManyRedirects | MissingSchema, MissingSchema
  | InvalidSchema, InvalidSchema | InvalidURL, InvalidURL
  | InvalidHeader, InvalidHeader
  | ChunkedEncodingError, ChunkedEncodingError
  | ContentDecodingError, ContentDecodingError
  | InvalidJSONError, InvalidJSONError | JSONDecodeError, JSONDecodeError
  | OSError, OSError | ValueError, ValueError | TypeError, TypeError
  | AttributeError, AttributeError | LookupError, LookupError
  | IndexError, IndexError | KeyError, KeyError => true
  | _, _ => false
  end.

(** The direct base classes, among the classes above. *)
Definition bases (c : exception) : list exception :=
  match c with
  | RequestException => [OSError]
  | HTTPError | ConnectionError | Timeout | URLRequired | TooManyRedirects
  | ChunkedEncodingError | ContentDecodingError | InvalidJSONError =>
      [RequestException]
  | ProxyError | SSLError => [ConnectionError]
  | ConnectTimeout => [ConnectionError; Timeout]
  | ReadTimeout => [Timeout]
  | MissingSchema | InvalidSchema | InvalidURL | InvalidHeader =>
      [RequestException; ValueError]
  | JSONDecodeError => [InvalidJSONError; ValueError]
  | IndexError | KeyError => [LookupError]
  | OSError | ValueError | TypeError | AttributeError | LookupError => []
  end.

Fixpoint issubclass_upto (depth : nat) (c cls : exception) : bool :=
  exception_eqb c cls ||
  match depth with
  | O => false
  | S d => existsb (fun b => issubclass_upto d b cls) (bases c)
  end.

(** [isinstance(e, cls)]; no class above is deeper than four levels. *)
Definition isinstance (e cls : exception) : bool := issubclass_upto 4 e cls.

Inductive result (A : Type) : Type :=
| Return (a : A)
| Raise (e : exception).
Arguments Return {A} a.
Arguments Raise {A} e.

(* ================================================================== *)
(** ** Effects: the HTTP call and the logger *)

(** The arguments of [requests.post(url, json=, headers=, timeout=)]. *)
Record Request : Type := mkRequest {
  url : pystr;
  json_body : pyval;
  headers : list (pystr * pystr);
  timeout : pyval
}.

(** What [format] reads of a [requests.Response]: [status_code], [text] and
    the outcome of calling [json()]. *)
Record Response : Type := mkResponse {
  status_code : Z;
  text : pystr;
  json : result pyval
}.

(** A call [logger.warning(msg, *args, exc_info=...)]; [exc_info] holds the
    exception being handled when the call passes [exc_info=True]. *)
Record LogRecord : Type := mkLogRecord {
  msg : pystr;
  args : list pyval;
  exc_info : option exception
}.

Inductive event : Type :=
| Post (r : Request)
| Warning (w : LogRecord).

(** The remote side: what [requests.post] does with a request. *)
Definition network := Request -> result Response.

(** A method body: it runs against a network, emits events in order and
    returns a value or raises. *)
Definition M (A : Type) : Type := network -> list event * result A.

Definition ret {A} (a : A) : M A := fun _ => ([], Return a).

Definition bind {A B} (m : M A) (k : A -> M B) : M B :=
  fun net =>
    match m net with
    | (t, Return a) => let (t', r) := k a net in (t ++ t', r)
    | (t, Raise e) => (t, Raise e)
    end.

Notation "x <- m ;; k" := (bind m (fun x => k))
  (at level 61, m at next level, right associativity).
Notation "m ;; k" := (bind m (fun _ => k))
  (at level 61, right associativity).

(** A pure expression that may raise. *)
Definition lift {A} (r : result A) : M A := fun _ => ([], r).

(** [try: body  except cls: handler] *)
Definition try_except {A} (body : M A) (cls : exception)
    (handler : exception -> M A) : M A :=
  fun net =>
    match body net with
    | (t, Raise e) =>
        if isinstance e cls
        then let (t', r) := handler e net in (t ++ t', r)
        else (t, Raise e)
    | done => done
    end.

Definition requests_post (url : pystr) (json : pyval)
    (headers : list (pystr * pystr)) (timeout : pyval) : M Response :=
  fun net => let r := mkRequest url json headers timeout in ([Post r], net r).

Definition logger_warning (msg : pystr) (args : list pyval)
    (exc_info : option exception) : M unit :=
  fun _ => ([Warning (mkLogRecord msg args exc_info)], Return tt).

Definition trace {A} (out : list event * result A) : list event := fst out.
Definition outcome {A} (out : list event * result A) : result A := snd out.

(* ================================================================== *)
(** ** The operations of Python that [format] uses *)

(** [v.get(key, default)]: only a dict has the method. *)
Definition py_get (v : pyval) (key : pystr) (default : pyval) : result pyval :=
  match v with
  | PyDict d =>
      match dict_lookup d key with
      | Some x => Return x
      | None => Return default
      end
  | _ => Raise AttributeError
  end.

(** [v[0]]: the first item of a list or of a string; a dict has no key [0]
    when its keys are strings; the other values are not subscriptable. *)
Definition py_item0 (v : pyval) : result pyval :=
  match v with
  | PyList (x :: _) => Return x
  | PyList [] => Raise IndexError
  | PyStr (c :: _) => Return (PyStr [c])
  | PyStr [] => Raise IndexError
  | PyDict _ => Raise KeyError
  | PyNone | PyBool _ | PyInt _ | PyFloat _ => Raise TypeError
  end.

(** [v.strip()]: a method of [str]. *)
Definition py_strip (v : pyval) : result pystr :=
  match v with
  | PyStr s => Return (str_strip s)
  | _ => Raise AttributeError
  end.

(* ================================================================== *)
(** ** [json.dumps(v, ensure_ascii=False)] *)

Definition quote : pystr := [34].

Definition hex_digit (d : N) : N := if d <? 10 then 48 + d else 87 + d.

(** One character of a string, as the encoder writes it when
    [ensure_ascii] is false: the quote, the backslash and the control
    characters below 0x20 are escaped, every other code point is written
    as it is. *)
Definition escape_char (c : N) : pystr :=
  if c =? 34 then [92; 34]
  else if c =? 92 then [92; 92]
  else if c =? 10 then [92; 110]
  else if c =? 13 then [92; 114]
  else if c =? 9 then [92; 116]
  else if c =? 8 then [92; 98]
  else if c =? 12 then [92; 102]
  else if c <? 32 then [92; 117; 48; 48; hex_digit (c / 16); hex_digit (c mod 16)]
  else [c].

Definition encode_basestring (s : pystr) : pystr :=
  quote ++ flat_map escape_char s ++ quote.

(** [int.__repr__] *)
Definition int_repr (n : Z) : pystr := u (NilZero.string_of_int (Z.to_int n)).

(** A float is written by [float.__repr__], except for the three values
    that JSON has no literal for. *)
Definition float_json (repr : pystr) : pystr :=
  if str_eqb repr (u "nan") then u "NaN"
  else if str_eqb repr (u "inf") then u "Infinity"
  else if str_eqb repr (u "-inf") then u "-Infinity"
  else repr.

(** [sep.join(parts)] *)
Fixpoint str_join (sep : pystr) (parts : list pystr) : pystr :=
  match parts with
  | [] => []
  | x :: r => x ++ match r with [] => [] | _ :: _ => sep ++ str_join sep r end
  end.

(** The default separators: ", " between items and ": " after a key. *)
Fixpoint json_dumps (v : pyval) : pystr :=
  match v with
  | PyNone => u "null"
  | PyBool true => u "true"
  | PyBool false => u "false"
  | PyInt n => int_repr n
  | PyFloat r => float_json r
  | PyStr s => encode_basestring s
  | PyList l => u "[" ++ str_join (u ", ") (map json_dumps l) ++ u "]"
  | PyDict d =>
      u "{"
      ++ str_join (u ", ")
           (map (fun kv : pystr * pyval =>
                   let (k, x) := kv in
                   encode_basestring k ++ u ": " ++ json_dumps x) d)
      ++ u "}"
  end.

(* ================================================================== *)
(** ** The class [GPTExposeFormatter] *)

Definition Dict := list (pystr * pyval).

(** The configuration object handed to the constructor: what each of its
    seven accessors returns. *)
Record Config : Type := mkConfig {
  gpt_enabled : pyval;
  gpt_api_key : pystr;
  gpt_api_base : pystr;
  gpt_model : pystr;
  gpt_temperature : pyval;
  gpt_system_prompt : pystr;
  gpt_timeout_seconds : pyval
}.

Record GPTExposeFormatter : Type := mkGPTExposeFormatter {
  _config : Config;
  _enabled : bool;
  _api_key : pystr;
  _api_base : pystr;
  _model : pystr;
  _temperature : pyval;
  _system_prompt : pystr;
  _timeout : pyval
}.

Definition __init__ (config : Config) : GPTExposeFormatter :=
  {| _config := config;
     _enabled := truthy (gpt_enabled config);
     _api_key := gpt_api_key config;
     _api_base := gpt_api_base config;
     _model := gpt_model config;
     _temperature := gpt_temperature config;
     _system_prompt := gpt_system_prompt config;
     _timeout := gpt_timeout_seconds config |}.

Definition _should_use_gpt (self : GPTExposeFormatter) : M bool :=
  ret (_enabled self && str_truthy (_api_key self) && str_truthy (_model self)).

(** The fixed instruction that precedes the serialized expose. *)
Definition user_instruction : pystr :=
  u "Проанализируй следующую информацию об объявлении и составь краткий, "
  ++ u "чёткий текст на русском языке. Сделай акцент на ключевых выгодах, "
  ++ u "укажи цену, район/адрес, количество комнат, площадь и добавь ссылку. "
  ++ u "Ответ должен занимать не более 6-7 предложений." ++ [10; 10]
  ++ u "Данные объявления (JSON):" ++ [10].

Definition _build_payload (self : GPTExposeFormatter) (expose : Dict) : M Dict :=
  let user_content := user_instruction ++ json_dumps (PyDict expose) in
  let messages :=
    [ PyDict [(u "role", PyStr (u "system"));
              (u "content", PyStr (_system_prompt self))];
      PyDict [(u "role", PyStr (u "user"));
              (u "content", PyStr user_content)] ] in
  ret [ (u "model", PyStr (_model self));
        (u "temperature", _temperature self);
        (u "messages", PyList messages) ].

Definition format (self : GPTExposeFormatter) (expose : Dict)
    (fallback : pystr) : M pystr :=
  use_gpt <- _should_use_gpt self ;;
  if negb use_gpt then ret fallback
  else
    try_except
      (payload <- _build_payload self expose ;;
       let headers :=
         [ (u "Authorization", u "Bearer " ++ _api_key self);
           (u "Content-Type", u "application/json") ] in
       let url := str_rstrip (u "/") (_api_base self) ++ u "/chat/completions" in
       response <- requests_post url (PyDict payload) headers (_timeout self) ;;
       if negb (status_code response =? 200)%Z then
         logger_warning (u "GPT API returned %s: %s")
           [PyInt (status_code response); PyStr (text response)] None ;;
         ret fallback
       else
         data <- lift (json response) ;;
         choices <- lift (py_get data (u "choices") (PyList [PyDict []])) ;;
         choice <- lift (py_item0 choices) ;;
         message_obj <- lift (py_get choice (u "message") (PyDict [])) ;;
         message <- lift (py_get message_obj (u "content") PyNone) ;;
         if negb (truthy message) then
           logger_warning
             (u "GPT API response missing content, falling back to default message")
             [] None ;;
           ret fallback
         else
           lift (py_strip message))
      RequestException
      (fun e =>
         logger_warning
           (u "Error while calling GPT API, falling back to default message")
           [] (Some e) ;;
         ret fallback).

Definition enabled (self : GPTExposeFormatter) : M bool :=
  _should_use_gpt self.

(** The request that [format] sends for an expose. *)
Definition sent_request (self : GPTExposeFormatter) (expose : Dict) : Request :=
  {| url := str_rstrip (u "/") (_api_base self) ++ u "/chat/completions";
     json_body :=
       PyDict
         [ (u "model", PyStr (_model self));
           (u "temperature", _temperature self);
           (u "messages",
            PyList
              [ PyDict [(u "role", PyStr (u "system"));
                        (u "content", PyStr (_system_prompt self))];
                PyDict [(u "role", PyStr (u "user"));
                        (u "content",
                         PyStr (user_instruction ++ json_dumps (PyDict expose)))] ]) ];
     headers :=
       [ (u "Authorization", u "Bearer " ++ _api_key self);
         (u "Content-Type", u "application/json") ];
     timeout := _timeout self |}.

(* ================================================================== *)
(** ** Sample data *)

Definition sample_config : Config :=
  {| gpt_enabled := PyBool true;
     gpt_api_key := u "sk-test";
     gpt_api_base := u "https://api.openai.com/v1/";
     gpt_model := u "gpt-4o-mini";
     gpt_temperature := PyFloat (u "0.2");
     gpt_system_prompt := u "S";
     gpt_timeout_seconds := PyInt 30 |}.

Definition sample : GPTExposeFormatter := __init__ sample_config.

Definition sample_expose : Dict :=
  [(u "price", PyInt 1000); (u "rooms", PyInt 2)].

(** A JSON object with the one member [key]. *)
Definition obj1 (key : string) (v : pyval) : pyval := PyDict [(u key, v)].

(** The parsed body of a chat completion whose first choice carries
    [content]. *)
Definition completion (content : pyval) : pyval :=
  obj1 "choices" (PyList [obj1 "message" (obj1 "content" content)]).

(** A network that answers every request with the same outcome. *)
Definition always (r : result Response) : network := fun _ => r.

Definition ok_json (body : pyval) : result Response :=
  Return {| status_code := 200; text := []; json := Return body |}.

(* ================================================================== *)
(** ** Vocabulary of the statements *)

Definition starts_with (p : N -> bool) (s : pystr) : bool :=
  match s with [] => false | c :: _ => p c end.

Definition ends_with (p : N -> bool) (s : pystr) : bool :=
  starts_with p (rev s).

(** The gate in the words of the specification: the enabled flag is true,
    the API key is non-empty and the model name is non-empty. *)
Definition gate (self : GPTExposeFormatter) : Prop :=
  _enabled self = true /\ _api_key self <> [] /\ _model self <> [].

(** The three warnings of [format]. *)
Definition warning_status (response : Response) : event :=
  Warning {| msg := u "GPT API returned %s: %s";
             args := [PyInt (status_code response); PyStr (text response)];
             exc_info := None |}.

Definition warning_missing_content : event :=
  Warning {| msg := u "GPT API response missing content, falling back to default message";
             args := [];
             exc_info := None |}.

Definition warning_request_error (e : exception) : event :=
  Warning {| msg := u "Error while calling GPT API, falling back to default message";
             args := [];
             exc_info := Some e |}.

(** The requests of a trace, in order. *)
Definition posts (t : list event) : list Request :=
  flat_map (fun ev => match ev with Post r => [r] | Warning _ => [] end) t.

(** Case analysis on the next value that the opened body of [format]
    inspects. *)
Ltac next_case :=
  match goal with
  | |- context [match ?x with _ => _ end] =>
      match x with
      | context [match _ with _ => _ end] => fail 1
      | _ => destruct x eqn:?
      end
  end;
  cbv beta iota zeta.

(** A network that answers only the URL of the sample request. *)
Definition only_sample_url (r : Request) : result Response :=
  if str_eqb (url r) (u "https://api.openai.com/v1/chat/completions")
  then ok_json (completion (PyStr (u " Great flat! ")))
  else Raise ConnectionError.

(** How often the code point [c] occurs in [s]. *)
Definition count (c : N) (s : pystr) : nat := count_occ N.eq_dec s c.

Definition is_ascii (s : pystr) : bool := forallb (fun x => x <? 128) s.

(** All the text that a value holds: its strings, the keys of its dicts
    and the digits of its floats, in order. *)
Fixpoint text_of (v : pyval) : pystr :=
  match v with
  | PyNone | PyBool _ | PyInt _ => []
  | PyFloat r => r
  | PyStr s => s
  | PyList l => List.concat (map text_of l)
  | PyDict d =>
      List.concat
        (map (fun kv : pystr * pyval => let (k, x) := kv in k ++ text_of x) d)
  end.

Section PyvalInduction.
Variable P : pyval -> Prop.
Hypothesis HNone : P PyNone.
Hypothesis HBool : forall b, P (PyBool b).
Hypothesis HInt : forall n, P (PyInt n).
Hypothesis HFloat : forall r, P (PyFloat r).
Hypothesis HStr : forall s, P (PyStr s).
Hypothesis HList : forall l, Forall P l -> P (PyList l).
Hypothesis HDict : forall d, Forall (fun kv => P (snd kv)) d -> P (PyDict d).

Fixpoint pyval_nested_ind (v : pyval) : P v :=
  match v with
  | PyNone => HNone
  | PyBool b => HBool b
  | PyInt n => HInt n
  | PyFloat r => HFloat r
  | PyStr s => HStr s
  | PyList l =>
      HList l
        ((fix all (l : list pyval) : Forall P l :=
            match l with
            | [] => Forall_nil P
            | x :: r => Forall_cons x (pyval_nested_ind x) (all r)
            end) l)
  | PyDict d =>
      HDict d
        ((fix all (d : list (pystr * pyval)) : Forall (fun kv => P (snd kv)) d :=
            match d with
            | [] => Forall_nil _
            | kv :: r =>
                Forall_cons (P := fun kv => P (snd kv)) kv
                  (pyval_nested_ind (snd kv)) (all r)
            end) d)
  end.
End PyvalInduction.

(** [isinstance(v, str)] *)
Definition is_str (v : pyval) : bool :=
  match v with PyStr _ => true | _ => false end.

(** The parsed bodies that [format] walks without an exception: an object
    in which [choices], when present, is a non-empty list that starts with
    an object, in which [message], when present, is an object, in which
    [content], when present, is a string or falsy. *)
Definition well_shaped (data : pyval) : bool :=
  match data with
  | PyDict body =>
      match dict_lookup body (u "choices") with
      | None => true
      | Some (PyList (PyDict choice :: _)) =>
          match dict_lookup choice (u "message") with
          | None => true
          | Some (PyDict message_obj) =>
              match dict_lookup message_obj (u "content") with
              | None => true
              | Some content => is_str content || negb (truthy content)
              end
          | Some _ => false
          end
      | Some _ => false
      end
  | _ => false
  end.

(* ================================================================== *)
(** * Properties *)

(** ** Evaluation on sample inputs *)

Example strip_great_flat : str_strip (u " Great flat! ") = u "Great flat!".
Proof. reflexivity. Qed.

Example rstrip_slashes :
  str_rstrip (u "/") (u "https://api.openai.com/v1//") = u "https://api.openai.com/v1".
Proof. reflexivity. Qed.

Example u_cyrillic : u "Проанализируй" =
  [1055; 1088; 1086; 1072; 1085; 1072; 1083; 1080; 1079; 1080; 1088; 1091; 1081].
Proof. reflexivity. Qed.

Example dumps_expose :
  json_dumps (PyDict [(u "price", PyInt 1000); (u "rooms", PyInt 2)])
  = u "{" ++ quote ++ u "price" ++ quote ++ u ": 1000, "
      ++ quote ++ u "rooms" ++ quote ++ u ": 2}".
Proof. reflexivity. Qed.

Example dumps_non_ascii :
  json_dumps (PyList [PyStr (u "Straße"); PyInt (-3); PyNone; PyFloat (u "54.5")])
  = u "[" ++ quote ++ u "Straße" ++ quote ++ u ", -3, null, 54.5]".
Proof. reflexivity. Qed.

Example format_great_flat :
  format sample sample_expose (u "fallback")
    (always (ok_json (completion (PyStr (u " Great flat! ")))))
  = ([Post (sent_request sample sample_expose)], Return (u "Great flat!")).
Proof. reflexivity. Qed.

(** ** Stripping *)

Section Stripping.
Variable p : N -> bool.

Lemma py_lstrip_split (s : pystr) :
  exists l, s = l ++ py_lstrip p s /\ forallb p l = true.
Proof.
  induction s as [|c r [l [Hs Hl]]]; simpl.
  - exists []. split; reflexivity.
  - destruct (p c) eqn:Hc.
    + exists (c :: l). simpl. rewrite Hc, Hl. split; [congruence | reflexivity].
    + exists []. split; reflexivity.
Qed.

Lemma py_lstrip_clean (s : pystr) : starts_with p (py_lstrip p s) = false.
Proof.
  induction s as [|c r IH]; simpl; [reflexivity|].
  destruct (p c) eqn:Hc; [exact IH | simpl; exact Hc].
Qed.

Lemma forallb_rev (l : pystr) : forallb p (rev l) = forallb p l.
Proof.
  induction l as [|c r IH]; simpl; [reflexivity|].
  rewrite forallb_app, IH. simpl. rewrite andb_true_r. apply andb_comm.
Qed.

Lemma py_rstrip_split (s : pystr) :
  exists r, s = py_rstrip p s ++ r /\ forallb p r = true.
Proof.
  unfold py_rstrip.
  destruct (py_lstrip_split (rev s)) as [l [Hs Hl]].
  exists (rev l). split.
  - rewrite <- rev_app_distr, <- Hs. symmetry. apply rev_involutive.
  - rewrite forallb_rev. exact Hl.
Qed.

Lemma py_rstrip_clean (s : pystr) : ends_with p (py_rstrip p s) = false.
Proof.
  unfold ends_with, py_rstrip. rewrite rev_involutive. apply py_lstrip_clean.
Qed.

Lemma py_rstrip_keeps_start (s : pystr) :
  starts_with p s = false -> starts_with p (py_rstrip p s) = false.
Proof.
  intros Hs. destruct (py_rstrip_split s) as [r [Hsplit _]].
  destruct (py_rstrip p s) as [|c t] eqn:E; [reflexivity|].
  rewrite Hsplit in Hs. exact Hs.
Qed.
End Stripping.

(** [s.strip()] removes a run of whitespace at each end and leaves a string
    that neither starts nor ends with whitespace. *)
Lemma str_strip_spec (s : pystr) :
  exists l r,
    s = l ++ str_strip s ++ r
    /\ forallb is_space l = true /\ forallb is_space r = true
    /\ starts_with is_space (str_strip s) = false
    /\ ends_with is_space (str_strip s) = false.
Proof.
  unfold str_strip.
  destruct (py_lstrip_split is_space s) as [l [Hl Hlw]].
  destruct (py_rstrip_split is_space (py_lstrip is_space s)) as [r [Hr Hrw]].
  exists l, r. repeat split; try assumption.
  - rewrite <- Hr. exact Hl.
  - apply py_rstrip_keeps_start, py_lstrip_clean.
  - apply py_rstrip_clean.
Qed.

Lemma py_lstrip_all (p : N -> bool) (s : pystr) :
  forallb p s = true -> py_lstrip p s = [].
Proof.
  induction s as [|c r IH]; simpl; [reflexivity|].
  destruct (p c); simpl; [exact IH | discriminate].
Qed.

(** A string of whitespace only strips to the empty string. *)
Lemma str_strip_blank (s : pystr) :
  forallb is_space s = true -> str_strip s = [].
Proof.
  intros H. unfold str_strip. rewrite (py_lstrip_all _ _ H). reflexivity.
Qed.

(** [s.rstrip('/')] removes every trailing slash. *)
Lemma str_rstrip_slash_spec (s : pystr) :
  exists k,
    s = str_rstrip (u "/") s ++ repeat 47 k
    /\ ends_with (N.eqb 47) (str_rstrip (u "/") s) = false.
Proof.
  unfold str_rstrip.
  set (p := fun c => existsb (N.eqb c) (u "/")).
  destruct (py_rstrip_split p s) as [r [Hs Hr]].
  exists (List.length r). split.
  - rewrite Hs at 1. f_equal.
    clear Hs. induction r as [|c r IH]; simpl; [reflexivity|].
    simpl in Hr. apply andb_true_iff in Hr. destruct Hr as [Hc Hr].
    rewrite <- (IH Hr). f_equal.
    unfold p in Hc. simpl in Hc. rewrite orb_false_r in Hc.
    apply N.eqb_eq in Hc. exact Hc.
  - pose proof (py_rstrip_clean p s) as Hc.
    unfold ends_with in *.
    destruct (rev (py_rstrip p s)) as [|c t]; [reflexivity|].
    unfold starts_with, p in *. change (u "/") with [47] in Hc.
    cbn [existsb] in Hc. rewrite orb_false_r in Hc.
    rewrite N.eqb_sym. exact Hc.
Qed.

(* ================================================================== *)
(** ** The usability gate *)

Lemma str_truthy_true (s : pystr) : str_truthy s = true <-> s <> [].
Proof. destruct s; simpl; split; congruence. Qed.

Lemma gate_test (self : GPTExposeFormatter) :
  _enabled self && str_truthy (_api_key self) && str_truthy (_model self) = true
  <-> gate self.
Proof.
  unfold gate. rewrite !andb_true_iff, !str_truthy_true. tauto.
Qed.

Lemma gate_closed_test (self : GPTExposeFormatter) :
  _enabled self = false \/ _api_key self = [] \/ _model self = [] ->
  _enabled self && str_truthy (_api_key self) && str_truthy (_model self) = false.
Proof.
  intros [H | [H | H]]; rewrite H; simpl.
  - reflexivity.
  - rewrite andb_false_r. reflexivity.
  - apply andb_false_r.
Qed.

(** Unfolds a method down to the network call it makes. *)
Ltac open_method :=
  unfold format, enabled, _should_use_gpt, _build_payload, try_except, bind,
    ret, lift, requests_post, logger_warning, sent_request,
    warning_status, warning_missing_content, warning_request_error in *;
  cbv beta zeta in *.

Ltac open_format Hgate :=
  let G := fresh "G" in
  pose proof (proj2 (gate_test _) Hgate) as G;
  open_method; rewrite G; cbv beta iota zeta; cbn [negb].

(** C1. When the gate is closed (the enabled flag is false, or the API key
    is empty, or the model name is empty), [format] returns the fallback
    as it is, sends no request and logs nothing: its trace is empty,
    whatever the network would answer. *)
Theorem format_gate_closed
    (self : GPTExposeFormatter) (expose : Dict) (fallback : pystr)
    (net : network) :
  _enabled self = false \/ _api_key self = [] \/ _model self = [] ->
  format self expose fallback net = ([], Return fallback).
Proof.
  intros H. apply gate_closed_test in H.
  open_method. rewrite H. reflexivity.
Qed.

Lemma format_gate_closed_witness :
  format (__init__ {| gpt_enabled := PyBool true;
                      gpt_api_key := [];
                      gpt_api_base := u "https://api.openai.com/v1";
                      gpt_model := u "gpt-4o-mini";
                      gpt_temperature := PyFloat (u "0.2");
                      gpt_system_prompt := u "S";
                      gpt_timeout_seconds := PyInt 30 |})
    sample_expose (u "plain text")
    (always (ok_json (completion (PyStr (u "generated")))))
  = ([], Return (u "plain text")).
Proof.
  apply format_gate_closed. right. left. reflexivity.
Defined.

(** C8. [enabled()] returns true exactly when the gate holds (enabled flag
    true, API key non-empty, model name non-empty); it returns the same
    value against every network, with an empty trace: no request, no log
    record. *)
Theorem enabled_iff_gate (self : GPTExposeFormatter) :
  exists b : bool,
    (forall net : network, enabled self net = ([], Return b))
    /\ (b = true <-> _enabled self = true /\ _api_key self <> [] /\ _model self <> []).
Proof.
  exists (_enabled self && str_truthy (_api_key self) && str_truthy (_model self)).
  split.
  - intros net. reflexivity.
  - apply gate_test.
Qed.

(** C5. With the gate open, a response whose status code is not 200 makes
    [format] return the fallback after one request and one warning, the
    warning carrying the status code and the response text; nothing is
    sent a second time. *)
Theorem format_status_not_200
    (self : GPTExposeFormatter) (expose : Dict) (fallback : pystr)
    (net : network) (response : Response) :
  gate self ->
  net (sent_request self expose) = Return response ->
  status_code response <> 200%Z ->
  format self expose fallback net
  = ([ Post (sent_request self expose);
       Warning {| msg := u "GPT API returned %s: %s";
                  args := [PyInt (status_code response); PyStr (text response)];
                  exc_info := None |} ],
     Return fallback).
Proof.
  intros Hgate Hnet Hstatus.
  apply Z.eqb_neq in Hstatus.
  open_format Hgate. rewrite Hnet, Hstatus. reflexivity.
Qed.

Lemma format_status_not_200_witness :
  format sample sample_expose (u "plain text")
    (always (Return {| status_code := 500;
                       text := u "Internal Server Error";
                       json := Raise JSONDecodeError |}))
  = ([ Post (sent_request sample sample_expose);
       Warning {| msg := u "GPT API returned %s: %s";
                  args := [PyInt 500; PyStr (u "Internal Server Error")];
                  exc_info := None |} ],
     Return (u "plain text")).
Proof.
  apply (format_status_not_200 sample sample_expose (u "plain text")
           (always (Return {| status_code := 500;
                              text := u "Internal Server Error";
                              json := Raise JSONDecodeError |}))
           {| status_code := 500;
              text := u "Internal Server Error";
              json := Raise JSONDecodeError |}).
  - repeat split; discriminate.
  - reflexivity.
  - discriminate.
Defined.

(** C4. With the gate open, when [requests.post] raises: an exception of
    class [RequestException] (connection failure, timeout, malformed
    transport response and the other classes derived from it) is caught,
    logged as one warning that carries the exception, and the fallback is
    returned; an exception of any other class is not caught and reaches
    the caller. *)
Theorem format_request_raises
    (self : GPTExposeFormatter) (expose : Dict) (fallback : pystr)
    (net : network) (e : exception) :
  gate self ->
  net (sent_request self expose) = Raise e ->
  (isinstance e RequestException = true ->
     format self expose fallback net
     = ([ Post (sent_request self expose);
          Warning {| msg := u "Error while calling GPT API, falling back to default message";
                     args := [];
                     exc_info := Some e |} ],
        Return fallback))
  /\ (isinstance e RequestException = false ->
     format self expose fallback net
     = ([Post (sent_request self expose)], Raise e))
  /\ (In e [ConnectionError; ConnectTimeout; ReadTimeout; Timeout; SSLError;
            ProxyError; ChunkedEncodingError; ContentDecodingError] ->
     isinstance e RequestException = true)
  /\ (In e [TypeError; AttributeError; ValueError; KeyError; IndexError;
            LookupError; OSError] ->
     isinstance e RequestException = false).
Proof.
  intros Hgate Hnet. repeat split.
  - intros He. open_format Hgate. rewrite Hnet, He. reflexivity.
  - intros He. open_format Hgate. rewrite Hnet, He. reflexivity.
  - simpl. intros H.
    repeat (destruct H as [<- | H]; [reflexivity|]). contradiction.
  - simpl. intros H.
    repeat (destruct H as [<- | H]; [reflexivity|]). contradiction.
Qed.

Lemma format_request_raises_witness :
  format sample sample_expose (u "plain text") (always (Raise ConnectTimeout))
  = ([ Post (sent_request sample sample_expose);
       Warning {| msg := u "Error while calling GPT API, falling back to default message";
                  args := [];
                  exc_info := Some ConnectTimeout |} ],
     Return (u "plain text")).
Proof.
  apply (format_request_raises sample sample_expose (u "plain text")
           (always (Raise ConnectTimeout)) ConnectTimeout).
  - repeat split; discriminate.
  - reflexivity.
  - reflexivity.
Defined.

(** C2. With the gate open, a 200 response whose parsed body has a
    non-empty string [s] at [choices[0].message.content] makes [format]
    return [s] without the whitespace at its two ends: [s] is a run of
    whitespace, the returned text, and a run of whitespace, and the
    returned text neither starts nor ends with whitespace.  One request is
    sent and nothing is logged. *)
Theorem format_returns_trimmed_content
    (self : GPTExposeFormatter) (expose : Dict) (fallback : pystr)
    (net : network) (response : Response)
    (body : Dict) (choice : Dict) (more_choices : list pyval)
    (message_obj : Dict) (s : pystr) :
  gate self ->
  net (sent_request self expose) = Return response ->
  status_code response = 200%Z ->
  json response = Return (PyDict body) ->
  dict_lookup body (u "choices") = Some (PyList (PyDict choice :: more_choices)) ->
  dict_lookup choice (u "message") = Some (PyDict message_obj) ->
  dict_lookup message_obj (u "content") = Some (PyStr s) ->
  s <> [] ->
  exists (trimmed before after : pystr),
    format self expose fallback net
    = ([Post (sent_request self expose)], Return trimmed)
    /\ s = before ++ trimmed ++ after
    /\ forallb is_space before = true
    /\ forallb is_space after = true
    /\ starts_with is_space trimmed = false
    /\ ends_with is_space trimmed = false.
Proof.
  intros Hgate Hnet Hstatus Hjson Hchoices Hmessage Hcontent Hs.
  destruct (str_strip_spec s) as [l [r Hspec]].
  exists (str_strip s), l, r. split; [|exact Hspec].
  open_format Hgate. rewrite Hnet, Hstatus, Hjson. cbv beta iota zeta.
  unfold py_get. rewrite Hchoices. cbv beta iota zeta. cbn [py_item0].
  rewrite Hmessage. cbv beta iota zeta. rewrite Hcontent.
  cbv beta iota zeta. cbn [truthy].
  destruct s as [|c s']; [congruence|]. reflexivity.
Qed.

Lemma format_returns_trimmed_content_witness :
  exists (trimmed before after : pystr),
    format sample sample_expose (u "plain text")
      (always (ok_json (completion (PyStr (u " Great flat! ")))))
    = ([Post (sent_request sample sample_expose)], Return trimmed)
    /\ u " Great flat! " = before ++ trimmed ++ after
    /\ forallb is_space before = true
    /\ forallb is_space after = true
    /\ starts_with is_space trimmed = false
    /\ ends_with is_space trimmed = false.
Proof.
  apply (format_returns_trimmed_content sample sample_expose (u "plain text")
           (always (ok_json (completion (PyStr (u " Great flat! ")))))
           {| status_code := 200; text := [];
              json := Return (completion (PyStr (u " Great flat! "))) |}
           [(u "choices",
             PyList [obj1 "message" (obj1 "content" (PyStr (u " Great flat! ")))])]
           [(u "message", obj1 "content" (PyStr (u " Great flat! ")))]
           []
           [(u "content", PyStr (u " Great flat! "))]
           (u " Great flat! ")).
  - repeat split; discriminate.
  - reflexivity.
  - reflexivity.
  - reflexivity.
  - reflexivity.
  - reflexivity.
  - reflexivity.
  - discriminate.
Defined.

(** The body of the specification's example gives "Great flat!". *)
Example format_great_flat_text :
  outcome (format sample sample_expose (u "plain text")
             (always (ok_json (completion (PyStr (u " Great flat! "))))))
  = Return (u "Great flat!").
Proof. reflexivity. Qed.

(** C3. A 200 response whose body is the JSON object with an empty
    [choices] array does not give the fallback: for the sample
    configuration and every expose and fallback, the subscript [[0]]
    raises [IndexError], which the handler for [RequestException] does not
    catch, so the exception reaches the caller and nothing is logged. *)
Theorem format_empty_choices_raises (expose : Dict) (fallback : pystr) :
  format sample expose fallback (always (ok_json (obj1 "choices" (PyList []))))
  = ([Post (sent_request sample expose)], Raise IndexError).
Proof. reflexivity. Qed.

(** The other two bodies that the specification lists do give the
    fallback with the warning. *)
Lemma format_message_without_content (expose : Dict) (fallback : pystr) :
  format sample expose fallback
    (always (ok_json (obj1 "choices" (PyList [obj1 "message" (PyDict [])]))))
  = ([Post (sent_request sample expose); warning_missing_content],
     Return fallback).
Proof. reflexivity. Qed.

Lemma format_body_without_choices (expose : Dict) (fallback : pystr) :
  format sample expose fallback (always (ok_json (PyDict [])))
  = ([Post (sent_request sample expose); warning_missing_content],
     Return fallback).
Proof. reflexivity. Qed.

(** Further bodies in which the path is missing and an exception leaves
    [format]: a null [choices], a null [message], a body that is not an
    object. *)
Lemma format_null_choices_raises (expose : Dict) (fallback : pystr) :
  format sample expose fallback (always (ok_json (obj1 "choices" PyNone)))
  = ([Post (sent_request sample expose)], Raise TypeError).
Proof. reflexivity. Qed.

Lemma format_null_message_raises (expose : Dict) (fallback : pystr) :
  format sample expose fallback
    (always (ok_json (obj1 "choices" (PyList [obj1 "message" PyNone]))))
  = ([Post (sent_request sample expose)], Raise AttributeError).
Proof. reflexivity. Qed.

Lemma format_array_body_raises (expose : Dict) (fallback : pystr) :
  format sample expose fallback (always (ok_json (PyList [])))
  = ([Post (sent_request sample expose)], Raise AttributeError).
Proof. reflexivity. Qed.

(** C10. With the gate open and a 200 response from whose body the
    expression [data.get("choices", [{}])[0].get("message", {}).get("content")]
    extracts [message]: the fallback is returned, with the warning, exactly
    when [message] is falsy; a truthy [message] is stripped and returned
    with no warning; so content that is non-empty and all whitespace gives
    the empty string and not the fallback. *)
Theorem format_content_truthiness
    (self : GPTExposeFormatter) (expose : Dict) (fallback : pystr)
    (net : network) (response : Response)
    (data choices choice message_obj message : pyval) :
  gate self ->
  net (sent_request self expose) = Return response ->
  status_code response = 200%Z ->
  json response = Return data ->
  py_get data (u "choices") (PyList [PyDict []]) = Return choices ->
  py_item0 choices = Return choice ->
  py_get choice (u "message") (PyDict []) = Return message_obj ->
  py_get message_obj (u "content") PyNone = Return message ->
  (truthy message = false ->
     format self expose fallback net
     = ([ Post (sent_request self expose);
          Warning {| msg := u "GPT API response missing content, falling back to default message";
                     args := [];
                     exc_info := None |} ],
        Return fallback))
  /\ (truthy message = true ->
     format self expose fallback net
     = ([Post (sent_request self expose)], py_strip message))
  /\ (forall s : pystr,
       message = PyStr s -> s <> [] -> forallb is_space s = true ->
       format self expose fallback net
       = ([Post (sent_request self expose)], Return [])).
Proof.
  intros Hgate Hnet Hstatus Hjson Hchoices Hchoice Hmessage Hcontent.
  assert (Hrun : forall b, truthy message = b ->
            format self expose fallback net
            = if b then ([Post (sent_request self expose)], py_strip message)
              else ([Post (sent_request self expose); warning_missing_content],
                    Return fallback)).
  { intros b Hb. open_format Hgate.
    rewrite Hnet, Hstatus, Hjson. cbv beta iota zeta.
    rewrite Hchoices. cbv beta iota zeta.
    rewrite Hchoice. cbv beta iota zeta.
    rewrite Hmessage. cbv beta iota zeta.
    rewrite Hcontent. cbv beta iota zeta.
    rewrite Hb. destruct b; cbn [negb]; [|reflexivity].
    destruct message; reflexivity. }
  repeat split.
  - intros Hb. apply (Hrun false Hb).
  - intros Hb. apply (Hrun true Hb).
  - intros s -> Hs Hblank.
    rewrite (Hrun true).
    + cbn [py_strip]. rewrite (str_strip_blank s Hblank). reflexivity.
    + apply str_truthy_true. exact Hs.
Qed.

Lemma format_content_truthiness_witness :
  format sample sample_expose (u "plain text")
    (always (ok_json (completion (PyStr (u "   ")))))
  = ([Post (sent_request sample sample_expose)], Return []).
Proof.
  apply (format_content_truthiness sample sample_expose (u "plain text")
           (always (ok_json (completion (PyStr (u "   ")))))
           {| status_code := 200; text := [];
              json := Return (completion (PyStr (u "   "))) |}
           (completion (PyStr (u "   ")))
           (PyList [obj1 "message" (obj1 "content" (PyStr (u "   ")))])
           (obj1 "message" (obj1 "content" (PyStr (u "   "))))
           (obj1 "content" (PyStr (u "   ")))
           (PyStr (u "   "))
        ) with (s := u "   ").
  - repeat split; discriminate.
  - reflexivity.
  - reflexivity.
  - reflexivity.
  - reflexivity.
  - reflexivity.
  - reflexivity.
  - reflexivity.
  - reflexivity.
  - discriminate.
  - reflexivity.
Defined.

(** The falsy values: [None], [False], zero, and the empty string, list and
    dict. *)
Lemma falsy_values (v : pyval) :
  truthy v = false <->
  v = PyNone \/ v = PyBool false \/ v = PyInt 0
  \/ (exists r, v = PyFloat r /\ float_is_zero r = true)
  \/ v = PyStr [] \/ v = PyList [] \/ v = PyDict [].
Proof.
  split.
  - destruct v as [|b|n|r|s|l|d]; simpl; intros H.
    + auto.
    + subst b. auto.
    + apply negb_false_iff, Z.eqb_eq in H. subst n. auto.
    + apply negb_false_iff in H. right. right. right. left. exists r. auto.
    + destruct s; [auto 10 | discriminate].
    + destruct l; [auto 10 | discriminate].
    + destruct d; [auto 10 | discriminate].
  - intros [-> | [-> | [-> | [[r [-> Hr]] | [-> | [-> | ->]]]]]]; simpl;
      try reflexivity.
    rewrite Hr. reflexivity.
Qed.

(* ================================================================== *)
(** ** The request *)

(** With the gate open, every path through [format] starts with the one
    request and sends no other. *)
Lemma format_gate_open_trace
    (self : GPTExposeFormatter) (expose : Dict) (fallback : pystr)
    (net : network) :
  gate self ->
  exists tail,
    trace (format self expose fallback net)
    = Post (sent_request self expose) :: tail
    /\ posts tail = [].
Proof.
  intros Hgate. open_format Hgate.
  repeat next_case; unfold trace; cbn [fst app]; eexists; split;
    reflexivity.
Qed.

(** C7. With the gate open, one call of [format] sends exactly one POST,
    whatever the network answers.  Its URL is the configured base, less
    every slash at its end, followed by "/chat/completions"; its headers
    are [Authorization: Bearer <api_key>] and
    [Content-Type: application/json]; its JSON body is the payload that
    [_build_payload] returns; its timeout is the configured one. *)
Theorem format_sends_one_post
    (self : GPTExposeFormatter) (expose : Dict) (fallback : pystr)
    (net : network) :
  gate self ->
  exists (base : pystr) (slashes : nat) (payload : Dict),
    _api_base self = base ++ repeat 47 slashes
    /\ ends_with (N.eqb 47) base = false
    /\ _build_payload self expose net = ([], Return payload)
    /\ posts (trace (format self expose fallback net))
       = [ {| url := base ++ u "/chat/completions";
              json_body := PyDict payload;
              headers :=
                [ (u "Authorization", u "Bearer " ++ _api_key self);
                  (u "Content-Type", u "application/json") ];
              timeout := _timeout self |} ].
Proof.
  intros Hgate.
  destruct (str_rstrip_slash_spec (_api_base self)) as [k [Hbase Hclean]].
  destruct (format_gate_open_trace self expose fallback net Hgate)
    as [tail [Htrace Htail]].
  exists (str_rstrip (u "/") (_api_base self)), k.
  eexists. split; [exact Hbase|]. split; [exact Hclean|].
  split; [reflexivity|].
  rewrite Htrace. unfold posts in *. cbn [flat_map app].
  rewrite Htail. reflexivity.
Qed.

Lemma format_sends_one_post_witness :
  exists (base : pystr) (slashes : nat) (payload : Dict),
    _api_base sample = base ++ repeat 47 slashes
    /\ ends_with (N.eqb 47) base = false
    /\ _build_payload sample sample_expose (always (Raise ReadTimeout))
       = ([], Return payload)
    /\ posts (trace (format sample sample_expose (u "plain text")
                       (always (Raise ReadTimeout))))
       = [ {| url := base ++ u "/chat/completions";
              json_body := PyDict payload;
              headers :=
                [ (u "Authorization", u "Bearer " ++ _api_key sample);
                  (u "Content-Type", u "application/json") ];
              timeout := _timeout sample |} ].
Proof.
  apply (format_sends_one_post sample sample_expose (u "plain text")
           (always (Raise ReadTimeout))).
  repeat split; discriminate.
Defined.

(** The URL for a base that ends in one slash and for one that ends in
    two. *)
Example url_of_sample :
  url (sent_request sample sample_expose)
  = u "https://api.openai.com/v1/chat/completions".
Proof. reflexivity. Qed.

(** C9. The result of [format] depends on the network only through its
    answer to the one request: on the same instance, expose and fallback,
    two networks that answer that request alike give the same returned
    string (or the same exception) and the same trace. *)
Theorem format_deterministic
    (self : GPTExposeFormatter) (expose : Dict) (fallback : pystr)
    (net1 net2 : network) :
  net1 (sent_request self expose) = net2 (sent_request self expose) ->
  format self expose fallback net1 = format self expose fallback net2.
Proof.
  intros Hnet. open_method.
  destruct (_enabled self && str_truthy (_api_key self) && str_truthy (_model self));
    cbv beta iota zeta; cbn [negb]; [|reflexivity].
  rewrite Hnet. repeat next_case; reflexivity.
Qed.

Lemma format_deterministic_witness :
  format sample sample_expose (u "plain text")
    (always (ok_json (completion (PyStr (u " Great flat! ")))))
  = format sample sample_expose (u "plain text") only_sample_url.
Proof.
  apply (format_deterministic sample sample_expose (u "plain text")
           (always (ok_json (completion (PyStr (u " Great flat! ")))))
           only_sample_url).
  reflexivity.
Defined.

(* ================================================================== *)
(** ** The payload *)

Lemma count_app (c : N) (a b : pystr) : count c (a ++ b) = (count c a + count c b)%nat.
Proof. apply count_occ_app. Qed.

Lemma count_ascii (c : N) (s : pystr) :
  is_ascii s = true -> 128 <= c -> count c s = 0%nat.
Proof.
  intros Hs Hc. induction s as [|x r IH]; [reflexivity|].
  simpl in Hs. apply andb_true_iff in Hs. destruct Hs as [Hx Hr].
  apply N.ltb_lt in Hx. unfold count in *. simpl.
  destruct (N.eq_dec x c) as [E|_]; [lia | exact (IH Hr)].
Qed.

Lemma str_eqb_eq (a b : pystr) : str_eqb a b = true -> a = b.
Proof.
  revert b. induction a as [|x a IH]; intros [|y b]; simpl; try discriminate.
  - reflexivity.
  - intros H. apply andb_true_iff in H. destruct H as [Hxy Hab].
    apply N.eqb_eq in Hxy. rewrite (IH b Hab), Hxy. reflexivity.
Qed.

Lemma utf8_decode_ascii (bs : list N) : is_ascii bs = true -> utf8_decode bs = bs.
Proof.
  induction bs as [|b r IH]; [reflexivity|].
  simpl. intros H. apply andb_true_iff in H. destruct H as [Hb Hr].
  rewrite Hb, (IH Hr). reflexivity.
Qed.

Lemma string_of_uint_ascii (d : Decimal.uint) :
  is_ascii (map N_of_ascii (list_ascii_of_string (NilEmpty.string_of_uint d))) = true.
Proof. induction d; simpl; try reflexivity; exact IHd. Qed.

Lemma int_repr_ascii (n : Z) : is_ascii (int_repr n) = true.
Proof.
  assert (Hz : forall d,
    is_ascii (map N_of_ascii (list_ascii_of_string (NilZero.string_of_uint d))) = true).
  { intros d. destruct d; try reflexivity; apply (string_of_uint_ascii (_ d)). }
  unfold int_repr, u.
  assert (H : is_ascii (map N_of_ascii
                (list_ascii_of_string (NilZero.string_of_int (Z.to_int n)))) = true).
  { destruct (Z.to_int n) as [d|d]; simpl; [apply Hz|].
    change (is_ascii (map N_of_ascii
              (list_ascii_of_string (NilZero.string_of_uint d))) = true).
    apply Hz. }
  rewrite (utf8_decode_ascii _ H). exact H.
Qed.

Lemma hex_digit_ascii (d : N) : d < 16 -> hex_digit d < 128.
Proof. unfold hex_digit. intros H. destruct (d <? 10); lia. Qed.

Lemma count_one_ascii (c x : N) : x < 128 -> 128 <= c -> count c [x] = 0%nat.
Proof.
  intros Hx Hc. apply count_ascii; [|exact Hc].
  simpl. apply N.ltb_lt in Hx. rewrite Hx. reflexivity.
Qed.

(** The escapes are ASCII, and only ASCII characters are escaped. *)
Lemma escape_char_count (c x : N) :
  128 <= c -> count c (escape_char x) = count c [x].
Proof.
  intros Hc. unfold escape_char.
  repeat match goal with
  | |- context [if ?a =? ?b then _ else _] =>
      destruct (N.eqb_spec a b);
      [subst; rewrite !count_ascii by (reflexivity || exact Hc); reflexivity|]
  end.
  destruct (N.ltb_spec x 32) as [Hlt|]; [|reflexivity].
  rewrite (count_one_ascii c x) by lia.
  apply count_ascii; [|exact Hc].
  assert (H1 : hex_digit (x / 16) < 128).
  { apply hex_digit_ascii. apply N.Div0.div_lt_upper_bound. lia. }
  assert (H2 : hex_digit (x mod 16) < 128).
  { apply hex_digit_ascii. apply N.mod_lt. lia. }
  apply N.ltb_lt in H1, H2. simpl. rewrite H1, H2. reflexivity.
Qed.

Lemma encode_basestring_count (c : N) (s : pystr) :
  128 <= c -> count c (encode_basestring s) = count c s.
Proof.
  intros Hc. unfold encode_basestring. rewrite !count_app.
  rewrite (count_ascii c quote) by (reflexivity || exact Hc).
  rewrite Nat.add_0_r. simpl.
  induction s as [|x r IH]; [reflexivity|].
  simpl flat_map. rewrite count_app, IH, escape_char_count by exact Hc.
  symmetry. apply (count_app c [x] r).
Qed.

Lemma float_json_count (c : N) (r : pystr) :
  128 <= c -> count c (float_json r) = count c r.
Proof.
  intros Hc. unfold float_json.
  repeat match goal with
  | |- context [if str_eqb ?a ?b then _ else _] =>
      destruct (str_eqb a b) eqn:E;
      [apply str_eqb_eq in E; subst;
       rewrite !count_ascii by (reflexivity || exact Hc); reflexivity
      | clear E]
  end.
  reflexivity.
Qed.

Lemma str_join_count (c : N) (sep : pystr) (parts : list pystr) :
  is_ascii sep = true -> 128 <= c ->
  count c (str_join sep parts) = count c (List.concat parts).
Proof.
  intros Hsep Hc. induction parts as [|x r IH]; [reflexivity|].
  simpl. rewrite !count_app. f_equal.
  destruct r as [|y r']; [reflexivity|].
  rewrite count_app, IH, (count_ascii c sep Hsep Hc). reflexivity.
Qed.

Lemma count_concat_map {A : Type} (c : N) (f g : A -> pystr) (l : list A) :
  Forall (fun x => count c (f x) = count c (g x)) l ->
  count c (List.concat (map f l)) = count c (List.concat (map g l)).
Proof.
  induction 1 as [|x r Hx _ IH]; [reflexivity|].
  simpl. rewrite !count_app, Hx, IH. reflexivity.
Qed.

(** [json.dumps(v, ensure_ascii=False)] keeps every character outside
    ASCII: it occurs in the output as often as in the text of [v]. *)
Lemma json_dumps_keeps_non_ascii (c : N) (v : pyval) :
  128 <= c -> count c (json_dumps v) = count c (text_of v).
Proof.
  intros Hc. induction v as [|b|n|r|s|l IH|d IH] using pyval_nested_ind.
  - apply count_ascii; [reflexivity | exact Hc].
  - destruct b; (apply count_ascii; [reflexivity | exact Hc]).
  - apply count_ascii; [apply int_repr_ascii | exact Hc].
  - apply float_json_count. exact Hc.
  - apply encode_basestring_count. exact Hc.
  - cbn [json_dumps text_of]. rewrite !count_app.
    rewrite !(count_ascii c (u _)) by (reflexivity || exact Hc).
    rewrite str_join_count by (reflexivity || exact Hc).
    rewrite Nat.add_0_r, Nat.add_0_l. apply count_concat_map. exact IH.
  - cbn [json_dumps text_of]. rewrite !count_app.
    rewrite !(count_ascii c (u _)) by (reflexivity || exact Hc).
    rewrite str_join_count by (reflexivity || exact Hc).
    rewrite Nat.add_0_r, Nat.add_0_l. apply count_concat_map.
    eapply Forall_impl; [|exact IH].
    intros [k x] Hx. cbn [snd] in Hx.
    rewrite !count_app, encode_basestring_count by exact Hc.
    rewrite (count_ascii c (u ": ")) by (reflexivity || exact Hc).
    rewrite Hx. reflexivity.
Qed.

(** A string with no quote, backslash or control character is written
    between quotes as it is. *)
Lemma encode_basestring_plain (s : pystr) :
  forallb (fun x => negb (x =? 34) && negb (x =? 92) && (32 <=? x)) s = true ->
  encode_basestring s = quote ++ s ++ quote.
Proof.
  intros H. unfold encode_basestring. do 2 f_equal.
  induction s as [|x r IH]; [reflexivity|].
  simpl in H. apply andb_true_iff in H. destruct H as [Hx Hr].
  simpl. rewrite (IH Hr).
  apply andb_true_iff in Hx. destruct Hx as [Hx H32].
  apply andb_true_iff in Hx. destruct Hx as [H34 H92].
  apply negb_true_iff in H34, H92. apply N.leb_le in H32.
  unfold escape_char. rewrite H34, H92.
  repeat match goal with
  | |- context [if ?a =? ?b then _ else _] =>
      destruct (N.eqb_spec a b); [lia|]
  end.
  destruct (N.ltb_spec x 32); [lia | reflexivity].
Qed.

(** C6. [_build_payload] has no effect and returns a dict with exactly the
    fields [model], [temperature] and [messages], holding the configured
    model, the configured temperature and two messages in order: the
    system message with the configured system prompt as it is, then the
    user message.  The content of the user message ends with
    [json.dumps(expose, ensure_ascii=False)], in which every character
    outside ASCII occurs as often as in the text of the expose: none is
    escaped. *)
Theorem build_payload_shape
    (self : GPTExposeFormatter) (expose : Dict) (net : network) :
  exists user_content : pystr,
    _build_payload self expose net
    = ([],
       Return
         [ (u "model", PyStr (_model self));
           (u "temperature", _temperature self);
           (u "messages",
            PyList
              [ PyDict [(u "role", PyStr (u "system"));
                        (u "content", PyStr (_system_prompt self))];
                PyDict [(u "role", PyStr (u "user"));
                        (u "content", PyStr user_content)] ]) ])
    /\ (exists before : pystr,
          user_content = before ++ json_dumps (PyDict expose))
    /\ (forall c : N,
          128 <= c ->
          count c (json_dumps (PyDict expose)) = count c (text_of (PyDict expose))).
Proof.
  exists (user_instruction ++ json_dumps (PyDict expose)).
  split; [reflexivity|]. split.
  - exists user_instruction. reflexivity.
  - intros c Hc. apply json_dumps_keeps_non_ascii. exact Hc.
Qed.

(** The payload of the specification's example: expose
    [{"price": 1000, "rooms": 2}] and system prompt "S". *)
Example build_payload_sample :
  outcome (_build_payload sample sample_expose (always (Raise Timeout)))
  = Return
      [ (u "model", PyStr (u "gpt-4o-mini"));
        (u "temperature", PyFloat (u "0.2"));
        (u "messages",
         PyList
           [ PyDict [(u "role", PyStr (u "system")); (u "content", PyStr (u "S"))];
             PyDict [(u "role", PyStr (u "user"));
                     (u "content",
                      PyStr (user_instruction
                             ++ u "{" ++ quote ++ u "price" ++ quote ++ u ": 1000, "
                             ++ quote ++ u "rooms" ++ quote ++ u ": 2}"))] ]) ].
Proof. reflexivity. Qed.

(** An address outside ASCII is written as it is. *)
Example dumps_address :
  json_dumps (PyDict [(u "address", PyStr (u "Münchner Straße 5"))])
  = u "{" ++ quote ++ u "address" ++ quote ++ u ": "
      ++ quote ++ u "Münchner Straße 5" ++ quote ++ u "}".
Proof. reflexivity. Qed.

(** A quote and a line feed inside a string are escaped. *)
Example dumps_escapes :
  json_dumps (PyStr (u "a" ++ [34; 10] ++ u "b"))
  = quote ++ u "a\" ++ quote ++ u "\nb" ++ quote.
Proof. reflexivity. Qed.

(* ================================================================== *)
(** ** Further properties of the class *)

(** X1. The constructor turns the configured flag into a boolean with
    [bool()]: for the instance built from a configuration, [enabled()] is
    true exactly when the flag is truthy and the API key and the model are
    non-empty, and with a falsy flag [format] returns the fallback without
    any event. *)
Theorem init_gate (config : Config) :
  exists b : bool,
    (forall net : network, enabled (__init__ config) net = ([], Return b))
    /\ (b = true <->
        truthy (gpt_enabled config) = true
        /\ gpt_api_key config <> [] /\ gpt_model config <> [])
    /\ (truthy (gpt_enabled config) = false ->
        forall (expose : Dict) (fallback : pystr) (net : network),
          format (__init__ config) expose fallback net = ([], Return fallback)).
Proof.
  exists (truthy (gpt_enabled config) && str_truthy (gpt_api_key config)
          && str_truthy (gpt_model config)).
  split; [intros net; reflexivity|]. split.
  - rewrite !andb_true_iff, !str_truthy_true. tauto.
  - intros Hflag expose fallback net. open_method.
    cbn [__init__ _enabled _api_key _model]. rewrite Hflag. reflexivity.
Qed.

(** X2. With the gate open and status 200, when [response.json()] raises:
    an exception of class [RequestException] (the JSON decoding error of
    [requests] is one) is caught like a failed request, one warning with
    the exception and the fallback; any other exception reaches the
    caller. *)
Theorem format_json_raises
    (self : GPTExposeFormatter) (expose : Dict) (fallback : pystr)
    (net : network) (response : Response) (e : exception) :
  gate self ->
  net (sent_request self expose) = Return response ->
  status_code response = 200%Z ->
  json response = Raise e ->
  (isinstance e RequestException = true ->
     format self expose fallback net
     = ([ Post (sent_request self expose);
          Warning {| msg := u "Error while calling GPT API, falling back to default message";
                     args := [];
                     exc_info := Some e |} ],
        Return fallback))
  /\ (isinstance e RequestException = false ->
     format self expose fallback net
     = ([Post (sent_request self expose)], Raise e))
  /\ isinstance JSONDecodeError RequestException = true.
Proof.
  intros Hgate Hnet Hstatus Hjson. repeat split.
  - intros He. open_format Hgate. rewrite Hnet, Hstatus, Hjson.
    change (negb (200 =? 200)%Z) with false. cbv beta iota zeta.
    rewrite He. reflexivity.
  - intros He. open_format Hgate. rewrite Hnet, Hstatus, Hjson.
    change (negb (200 =? 200)%Z) with false. cbv beta iota zeta.
    rewrite He. reflexivity.
Qed.

Lemma format_json_raises_witness :
  format sample sample_expose (u "plain text")
    (always (Return {| status_code := 200;
                       text := u "<html>";
                       json := Raise JSONDecodeError |}))
  = ([ Post (sent_request sample sample_expose);
       Warning {| msg := u "Error while calling GPT API, falling back to default message";
                  args := [];
                  exc_info := Some JSONDecodeError |} ],
     Return (u "plain text")).
Proof.
  apply (format_json_raises sample sample_expose (u "plain text")
           (always (Return {| status_code := 200;
                              text := u "<html>";
                              json := Raise JSONDecodeError |}))
           {| status_code := 200; text := u "<html>";
              json := Raise JSONDecodeError |}
           JSONDecodeError).
  - repeat split; discriminate.
  - reflexivity.
  - reflexivity.
  - reflexivity.
  - reflexivity.
Defined.

Lemma py_strip_returns (v : pyval) (t : pystr) :
  py_strip v = Return t -> truthy v = true ->
  exists s, s <> [] /\ t = str_strip s.
Proof.
  destruct v as [|b|n|r|s|l|d]; simpl; try discriminate.
  intros H Hs. injection H as <-. exists s. split; [|reflexivity].
  apply str_truthy_true. exact Hs.
Qed.

(** X3. Whatever the configuration, the expose and the network do, one
    call of [format] ends in one of four ways: the fallback with no event
    (gate closed); the fallback after the one request and exactly one
    warning; the stripped text of a non-empty string after the one request
    and no warning; or an exception after the one request and no warning,
    and then the exception is never of class [RequestException]. *)
Theorem format_outcomes
    (self : GPTExposeFormatter) (expose : Dict) (fallback : pystr)
    (net : network) :
  format self expose fallback net = ([], Return fallback)
  \/ (exists w : LogRecord,
        format self expose fallback net
        = ([Post (sent_request self expose); Warning w], Return fallback))
  \/ (exists s : pystr,
        s <> []
        /\ format self expose fallback net
           = ([Post (sent_request self expose)], Return (str_strip s)))
  \/ (exists e : exception,
        isinstance e RequestException = false
        /\ format self expose fallback net
           = ([Post (sent_request self expose)], Raise e)).
Proof.
  open_method.
  destruct (_enabled self && str_truthy (_api_key self) && str_truthy (_model self));
    cbv beta iota zeta; cbn [negb]; [|left; reflexivity].
  right.
  repeat next_case; cbn [app];
    try (left; eexists; reflexivity);
    try (right; right; eexists; split; [eassumption | reflexivity]).
  right. left.
  match goal with
  | H : py_strip _ = Return _, T : negb (truthy _) = false |- _ =>
      apply negb_false_iff in T;
      destruct (py_strip_returns _ _ H T) as [s [Hs ->]]
  end.
  exists s. split; [exact Hs | reflexivity].
Qed.

(** The expression [data.get("choices", [{}])[0].get("message", {}).get("content")]
    followed by the test and the strip, as a pure function of the parsed
    body: how [format] ends after a 200 response. *)
Lemma format_after_200
    (self : GPTExposeFormatter) (expose : Dict) (fallback : pystr)
    (net : network) (response : Response) (data : pyval) :
  gate self ->
  net (sent_request self expose) = Return response ->
  status_code response = 200%Z ->
  json response = Return data ->
  format self expose fallback net
  = match py_get data (u "choices") (PyList [PyDict []]) with
    | Raise e => ([Post (sent_request self expose)], Raise AttributeError)
    | Return choices =>
      match py_item0 choices with
      | Raise e => ([Post (sent_request self expose)], Raise e)
      | Return choice =>
        match py_get choice (u "message") (PyDict []) with
        | Raise e => ([Post (sent_request self expose)], Raise AttributeError)
        | Return message_obj =>
          match py_get message_obj (u "content") PyNone with
          | Raise e => ([Post (sent_request self expose)], Raise AttributeError)
          | Return message =>
              if truthy message
              then if is_str message
                   then ([Post (sent_request self expose)], py_strip message)
                   else ([Post (sent_request self expose)], Raise AttributeError)
              else ([Post (sent_request self expose); warning_missing_content],
                    Return fallback)
          end
        end
      end
    end.
Proof.
  intros Hgate Hnet Hstatus Hjson.
  open_format Hgate. rewrite Hnet, Hstatus, Hjson.
  change (negb (200 =? 200)%Z) with false. cbv beta iota zeta.
  destruct data as [| | | | | |body]; try reflexivity.
  unfold py_get at 1 4.
  destruct (dict_lookup body (u "choices")) as [choices|]; [|reflexivity].
  cbv beta iota zeta.
  destruct choices as [| | | |[|c s]|[|choice rest]|]; try reflexivity.
  cbn [py_item0]. cbv beta iota zeta.
  destruct choice as [| | | | | |choice]; try reflexivity.
  unfold py_get at 1 3.
  destruct (dict_lookup choice (u "message")) as [message_obj|]; [|reflexivity].
  cbv beta iota zeta.
  destruct message_obj as [| | | | | |message_obj]; try reflexivity.
  unfold py_get.
  destruct (dict_lookup message_obj (u "content")) as [message|];
    [|reflexivity].
  cbv beta iota zeta.
  destruct (truthy message) eqn:Ht; cbn [negb]; [|reflexivity].
  destruct message; reflexivity.
Qed.

(** X4. After a 200 response whose body parses, the shape of the body
    decides whether [format] returns or raises.  It returns a string
    exactly for an object in which [choices], when present, is a non-empty
    list starting with an object, [message], when present, is an object,
    and [content], when present, is a string or falsy.  For every other
    body an [AttributeError], [IndexError], [KeyError] or [TypeError]
    reaches the caller, after the one request and with nothing logged. *)
Theorem format_raises_iff_ill_shaped
    (self : GPTExposeFormatter) (expose : Dict) (fallback : pystr)
    (net : network) (response : Response) (data : pyval) :
  gate self ->
  net (sent_request self expose) = Return response ->
  status_code response = 200%Z ->
  json response = Return data ->
  (well_shaped data = true ->
     exists t : pystr,
       outcome (format self expose fallback net) = Return t)
  /\ (well_shaped data = false ->
     exists e : exception,
       In e [AttributeError; IndexError; KeyError; TypeError]
       /\ format self expose fallback net
          = ([Post (sent_request self expose)], Raise e)).
Proof.
  intros Hgate Hnet Hstatus Hjson.
  rewrite (format_after_200 self expose fallback net response data
             Hgate Hnet Hstatus Hjson).
  unfold well_shaped, py_get, py_item0.
  split; intros Hw;
    repeat match goal with
    | H : context [match ?x with _ => _ end] |- _ =>
        match x with
        | context [match _ with _ => _ end] => fail 1
        | _ => destruct x eqn:?
        end
    | |- context [match ?x with _ => _ end] =>
        match x with
        | context [match _ with _ => _ end] => fail 1
        | _ => destruct x eqn:?
        end
    end;
    try discriminate;
    try (eexists; reflexivity);
    try (eexists; split; [|reflexivity]; simpl; tauto);
    try (cbn [negb] in Hw; rewrite ?orb_true_r in Hw; discriminate Hw).
  match goal with
  | H : is_str ?v = true |- _ => destruct v; try discriminate H
  end.
  eexists. reflexivity.
Qed.

Lemma format_raises_iff_ill_shaped_witness :
  exists e : exception,
    In e [AttributeError; IndexError; KeyError; TypeError]
    /\ format sample sample_expose (u "plain text")
         (always (ok_json (completion (PyList [obj1 "text" (PyStr (u "Nice flat"))]))))
       = ([Post (sent_request sample sample_expose)], Raise e).
Proof.
  apply (format_raises_iff_ill_shaped sample sample_expose (u "plain text")
           (always (ok_json (completion (PyList [obj1 "text" (PyStr (u "Nice flat"))]))))
           {| status_code := 200; text := [];
              json := Return (completion (PyList [obj1 "text" (PyStr (u "Nice flat"))])) |}
           (completion (PyList [obj1 "text" (PyStr (u "Nice flat"))]))).
  - repeat split; discriminate.
  - reflexivity.
  - reflexivity.
  - reflexivity.
  - reflexivity.
Defined.

(** X5. After a 200 response whose body is an object, a key missing on
    the way to the content gives the fallback with the warning about
    missing content: no [choices] key; or a first choice that is an object
    without [message]; or a message object without [content], or with a
    null or empty-string [content]. *)
Theorem format_missing_key
    (self : GPTExposeFormatter) (expose : Dict) (fallback : pystr)
    (net : network) (response : Response) (body : Dict) :
  gate self ->
  net (sent_request self expose) = Return response ->
  status_code response = 200%Z ->
  json response = Return (PyDict body) ->
  (dict_lookup body (u "choices") = None
   \/ exists (choice : Dict) (more_choices : list pyval),
        dict_lookup body (u "choices")
        = Some (PyList (PyDict choice :: more_choices))
        /\ (dict_lookup choice (u "message") = None
            \/ exists message_obj : Dict,
                 dict_lookup choice (u "message") = Some (PyDict message_obj)
                 /\ (dict_lookup message_obj (u "content") = None
                     \/ dict_lookup message_obj (u "content") = Some PyNone
                     \/ dict_lookup message_obj (u "content") = Some (PyStr [])))) ->
  format self expose fallback net
  = ([ Post (sent_request self expose);
       Warning {| msg := u "GPT API response missing content, falling back to default message";
                  args := [];
                  exc_info := None |} ],
     Return fallback).
Proof.
  intros Hgate Hnet Hstatus Hjson Hmissing.
  rewrite (format_after_200 self expose fallback net response (PyDict body)
             Hgate Hnet Hstatus Hjson).
  unfold py_get at 1.
  destruct Hmissing as [-> | [choice [rest [-> Hchoice]]]]; [reflexivity|].
  cbn [py_item0]. unfold py_get at 1.
  destruct Hchoice as [-> | [message_obj [-> Hcontent]]]; [reflexivity|].
  unfold py_get.
  destruct Hcontent as [-> | [-> | ->]]; reflexivity.
Qed.

Lemma format_missing_key_witness :
  format sample sample_expose (u "plain text")
    (always (ok_json (PyDict [(u "id", PyStr (u "chatcmpl-1"))])))
  = ([ Post (sent_request sample sample_expose);
       Warning {| msg := u "GPT API response missing content, falling back to default message";
                  args := [];
                  exc_info := None |} ],
     Return (u "plain text")).
Proof.
  apply (format_missing_key sample sample_expose (u "plain text")
           (always (ok_json (PyDict [(u "id", PyStr (u "chatcmpl-1"))])))
           {| status_code := 200; text := [];
              json := Return (PyDict [(u "id", PyStr (u "chatcmpl-1"))]) |}
           [(u "id", PyStr (u "chatcmpl-1"))]).
  - repeat split; discriminate.
  - reflexivity.
  - reflexivity.
  - reflexivity.
  - left. reflexivity.
Defined.

Lemma py_lstrip_app_all (p : N -> bool) (a b : pystr) :
  forallb p a = true -> py_lstrip p (a ++ b) = py_lstrip p b.
Proof.
  induction a as [|c r IH]; simpl; [reflexivity|].
  destruct (p c); simpl; [exact IH | discriminate].
Qed.

Lemma rev_repeat (c : N) (k : nat) : rev (repeat c k) = repeat c k.
Proof.
  induction k as [|k IH]; [reflexivity|].
  simpl. rewrite IH. symmetry. apply repeat_cons.
Qed.

(** Slashes added at the end of a string do not change what
    [rstrip('/')] gives. *)
Lemma str_rstrip_slash_absorbs (s : pystr) (k : nat) :
  str_rstrip (u "/") (s ++ repeat 47 k) = str_rstrip (u "/") s.
Proof.
  unfold str_rstrip, py_rstrip. f_equal.
  rewrite rev_app_distr, rev_repeat.
  apply py_lstrip_app_all.
  induction k as [|k IH]; [reflexivity|]. simpl. exact IH.
Qed.

(** X6. The URL does not depend on the slashes at the end of the
    configured base: two instances whose bases differ only by trailing
    slashes post to the same URL, and a base made of slashes only (or
    empty) gives "/chat/completions". *)
Theorem format_url_ignores_trailing_slashes
    (self1 self2 : GPTExposeFormatter) (expose : Dict) (fallback : pystr)
    (net1 net2 : network) (slashes : nat) :
  gate self1 ->
  gate self2 ->
  _api_base self2 = _api_base self1 ++ repeat 47 slashes ->
  map url (posts (trace (format self2 expose fallback net2)))
  = map url (posts (trace (format self1 expose fallback net1)))
  /\ (_api_base self1 = [] ->
      map url (posts (trace (format self2 expose fallback net2)))
      = [u "/chat/completions"]).
Proof.
  intros Hgate1 Hgate2 Hbase.
  destruct (format_gate_open_trace self1 expose fallback net1 Hgate1)
    as [tail1 [-> Htail1]].
  destruct (format_gate_open_trace self2 expose fallback net2 Hgate2)
    as [tail2 [-> Htail2]].
  unfold posts in *. cbn [flat_map app map].
  rewrite Htail1, Htail2. cbn [map sent_request url].
  rewrite Hbase, str_rstrip_slash_absorbs.
  split; [reflexivity|].
  intros ->. reflexivity.
Qed.

Lemma format_url_ignores_trailing_slashes_witness :
  map url (posts (trace (format sample sample_expose (u "plain text")
                           (always (Raise ConnectionError)))))
  = map url (posts (trace (format
       (__init__ {| gpt_enabled := PyBool true;
                    gpt_api_key := u "sk-test";
                    gpt_api_base := u "https://api.openai.com/v1";
                    gpt_model := u "gpt-4o-mini";
                    gpt_temperature := PyFloat (u "0.2");
                    gpt_system_prompt := u "S";
                    gpt_timeout_seconds := PyInt 30 |})
       sample_expose (u "plain text") (always (Raise ConnectionError))))).
Proof.
  apply (format_url_ignores_trailing_slashes
           (__init__ {| gpt_enabled := PyBool true;
                        gpt_api_key := u "sk-test";
                        gpt_api_base := u "https://api.openai.com/v1";
                        gpt_model := u "gpt-4o-mini";
                        gpt_temperature := PyFloat (u "0.2");
                        gpt_system_prompt := u "S";
                        gpt_timeout_seconds := PyInt 30 |})
           sample sample_expose (u "plain text")
           (always (Raise ConnectionError)) (always (Raise ConnectionError))
           1%nat).
  - repeat split; discriminate.
  - repeat split; discriminate.
  - reflexivity.
Defined.

(* ================================================================== *)
(** ** Further properties of the serialized expose *)

(** X7. A string value with no quote, no backslash and no control
    character, which covers every text outside ASCII, is serialized as the
    same code points between two quotes. *)
Theorem json_dumps_plain_string (s : pystr) :
  forallb (fun x => negb (x =? 34) && negb (x =? 92) && (32 <=? x)) s = true ->
  json_dumps (PyStr s) = quote ++ s ++ quote.
Proof. intros H. cbn [json_dumps]. apply encode_basestring_plain. exact H. Qed.

Lemma json_dumps_plain_string_witness :
  json_dumps (PyStr (u "Münchner Straße 5, 2 комнаты"))
  = quote ++ u "Münchner Straße 5, 2 комнаты" ++ quote.
Proof.
  apply (json_dumps_plain_string (u "Münchner Straße 5, 2 комнаты")).
  reflexivity.
Defined.

Lemma hex_digit_inj (a b : N) :
  a < 16 -> b < 16 -> hex_digit a = hex_digit b -> a = b.
Proof.
  unfold hex_digit. intros Ha Hb.
  destruct (N.ltb_spec a 10), (N.ltb_spec b 10); lia.
Qed.

Lemma below_32_by_digits (x y : N) :
  x < 32 -> y < 32 ->
  hex_digit (x / 16) = hex_digit (y / 16) ->
  hex_digit (x mod 16) = hex_digit (y mod 16) ->
  x = y.
Proof.
  intros Hx Hy Hq Hr.
  assert (Hxq : x / 16 < 16) by (apply N.Div0.div_lt_upper_bound; lia).
  assert (Hyq : y / 16 < 16) by (apply N.Div0.div_lt_upper_bound; lia).
  assert (Hxr : x mod 16 < 16) by (apply N.mod_lt; lia).
  assert (Hyr : y mod 16 < 16) by (apply N.mod_lt; lia).
  apply hex_digit_inj in Hq; [|assumption|assumption].
  apply hex_digit_inj in Hr; [|assumption|assumption].
  rewrite (N.div_mod x 16), (N.div_mod y 16) by lia.
  rewrite Hq, Hr. reflexivity.
Qed.

(** No escape is the start of another: the first character of the output
    tells which character was written. *)
Lemma escape_char_prefix_free (x y : N) (r1 r2 : pystr) :
  escape_char x ++ r1 = escape_char y ++ r2 -> x = y /\ r1 = r2.
Proof.
  unfold escape_char.
  repeat match goal with
  | |- context [if ?a =? ?b then _ else _] => destruct (N.eqb_spec a b)
  | |- context [if ?a <? ?b then _ else _] => destruct (N.ltb_spec a b)
  end;
  cbn [app]; intros Happ; injection Happ; intros; subst;
  try (split; [reflexivity || lia | reflexivity || assumption]);
  try lia.
  split; [|reflexivity].
  apply below_32_by_digits; assumption.
Qed.

Lemma escape_string_injective (s1 s2 : pystr) :
  flat_map escape_char s1 = flat_map escape_char s2 -> s1 = s2.
Proof.
  revert s2. induction s1 as [|x r1 IH]; intros [|y r2]; simpl.
  - reflexivity.
  - unfold escape_char.
    repeat match goal with
    | |- context [if ?c then _ else _] => destruct c
    end; discriminate.
  - unfold escape_char.
    repeat match goal with
    | |- context [if ?c then _ else _] => destruct c
    end; discriminate.
  - intros H. apply escape_char_prefix_free in H. destruct H as [-> H].
    rewrite (IH r2 H). reflexivity.
Qed.

(** X8. The serialization of strings loses nothing: two string values
    that [json.dumps] writes alike are the same string. *)
Theorem json_dumps_string_injective (s1 s2 : pystr) :
  json_dumps (PyStr s1) = json_dumps (PyStr s2) -> s1 = s2.
Proof.
  cbn [json_dumps]. unfold encode_basestring. intros H.
  apply app_inv_head in H. apply app_inv_tail in H.
  apply escape_string_injective. exact H.
Qed.

Lemma json_dumps_string_injective_witness :
  u "2-Zimmer" ++ [34; 10] = [50; 45; 90; 105; 109; 109; 101; 114; 34; 10].
Proof.
  apply (json_dumps_string_injective
           (u "2-Zimmer" ++ [34; 10])
           [50; 45; 90; 105; 109; 109; 101; 114; 34; 10]).
  reflexivity.
Defined.
